(** * The account controller of pefcl, embedded and checked against its
      specification.

    Source: [src/server/services/account/account.controller.ts].

    The controller is glue: every handler receives a request and a reply
    callback [res], awaits at most two methods of the services it was
    constructed with, and replies with an object literal.  The embedding keeps
    exactly that shape.  A handler is a computation in a small monad that
    threads the state of the world behind the services, records every service
    call, every reply and every [console.error] in a trace, and completes
    either normally or with the exception that escaped it (the rejection of
    the promise an [async] method returns).  A promise that rejects with
    nobody awaiting it is recorded as what it is, an unhandled rejection. *)

From stdpp Require Import base gmap list strings.
From Stdlib Require Import ZArith.

Local Open Scope string_scope.
Local Open Scope Z_scope.
Local Open Scope list_scope.

Set Implicit Arguments.

(** ** Values *)

(** [AccountRole] of [@typings/Account]: the three members the controller
    names. *)
Inductive AccountRole := Owner | Admin | Contributor.

Global Instance AccountRole_eq_dec : EqDecision AccountRole.
Proof. solve_decision. Defined.

(** What a service throws: an [Error] object.  The handlers read its
    [message] and, in one place, its [name]. *)
Record JsError := { name : string; message : string }.

(** [Request<T>] of [@typings/http]: the caller's session handle and the
    payload. *)
Record Request (A : Type) := { source : Z; data : A }.

(** The payload types of [@typings/Account] and [typings/user] are declared
    outside the controller; it reads one field of some of them and passes the
    rest through untouched.  They are taken as parameters, together with the
    fields the controller reads.  A [number] is an integer here: the
    controller never computes with one, it only tests [accountId] for
    truthiness. *)
Record Typings := {
  Account : Type;
  PreDBAccount : Type;
  CreateSharedInput : Type;
  ExternalAccount : Type;
  SharedAccountUser : Type;
  ATMInput : Type;
  RenameAccountInput : Type;
  AddToSharedAccountInput : Type;
  RemoveFromSharedAccountInput : Type;
  AddBankBalanceInput : Type;
  OnlineUser : Type;
  (* [accountId] of an [ATMInput] may be absent: [None] is [undefined]. *)
  ATMInput_accountId : ATMInput -> option Z;
  RenameAccountInput_accountId : RenameAccountInput -> Z;
  AddToSharedAccountInput_accountId : AddToSharedAccountInput -> Z;
  RemoveFromSharedAccountInput_accountId : RemoveFromSharedAccountInput -> Z;
  OnlineUser_source : OnlineUser -> Z
}.

(** The inline payload type [{ accountId: number }]. *)
Record AccountIdInput := { accountId : Z }.

(** The values a handler hands to [res] as [data]. *)
Inductive Data (T : Typings) :=
| DUndefined                                     (* what a [void] call yields *)
| DEmpty                                         (* the literal [{}] *)
| DAccounts (l : list (Account T))
| DNumber (n : Z)
| DAccount (a : Account T)
| DUsers (l : list (SharedAccountUser T))
| DExternal (l : list (ExternalAccount T)).
Arguments DUndefined {T}.
Arguments DEmpty {T}.
Arguments DAccounts {T} l.
Arguments DNumber {T} n.
Arguments DAccount {T} a.
Arguments DUsers {T} l.
Arguments DExternal {T} l.

(** [ServerPromiseResp<T>]: the object literal given to [res].  A field that
    the literal does not mention is [None]. *)
Inductive Status := ok | error.

Record ServerPromiseResp (T : Typings) := {
  status : Status;
  rdata : option (Data T);
  errorMsg : option string;
  errorName : option string
}.

(** ** Asynchronous methods *)

(** A promise settles to a value or to a thrown error. *)
Inductive Outcome (A : Type) :=
| Resolved (a : A)
| Rejected (e : JsError).
Arguments Rejected {A} e.

Definition rejection {A} (o : Outcome A) : option JsError :=
  match o with Resolved _ => None | Rejected e => Some e end.

Definition omap_outcome {A B} (f : A -> B) (o : Outcome A) : Outcome B :=
  match o with Resolved a => Resolved (f a) | Rejected e => Rejected e end.

(** An [async] method of a service: awaited in a state of the world, it
    settles and leaves a new state. *)
Definition Async (World A : Type) := World -> Outcome A * World.

(** ** The services the controller is constructed with *)

Module AuthService.
Record t (World : Type) := {
  isAuthorizedAccount : Z -> Z -> list AccountRole -> Async World unit
}.
End AuthService.

Module AccountService.
Record t (T : Typings) (World : Type) := {
  handleGetMyAccounts : Z -> Async World (list (Account T));
  getTotalBankBalance : Z -> Async World Z;
  handleCreateAccount : Request (PreDBAccount T) -> Async World (Account T);
  handleDeleteAccount : Request AccountIdInput -> Async World unit;
  createAccount : Request (CreateSharedInput T) -> Async World (Account T);
  handleDepositMoney : Request (ATMInput T) -> Async World unit;
  handleWithdrawMoney : Request (ATMInput T) -> Async World unit;
  handleSetDefaultAccount : Request AccountIdInput -> Async World unit;
  handleRenameAccount : Request (RenameAccountInput T) -> Async World unit;
  addUserToShared : Request (AddToSharedAccountInput T) -> Async World unit;
  removeUserFromShared :
    Request (RemoveFromSharedAccountInput T) -> Async World unit;
  getUsersFromShared :
    Request AccountIdInput -> Async World (list (SharedAccountUser T));
  addMoney : Request (AddBankBalanceInput T) -> Async World unit;
  removeMoney : Request (AddBankBalanceInput T) -> Async World unit;
  createInitialAccount : Z -> Async World (Account T)
}.
End AccountService.

Module ExternalAccountService.
Record t (T : Typings) (World : Type) := {
  handleAddAccount : Request (ExternalAccount T) -> Async World unit;
  getAccounts : Request unit -> Async World (list (ExternalAccount T))
}.
End ExternalAccountService.

(** The fields the constructor sets. *)
Record AccountController (T : Typings) (World : Type) := {
  _auth : AuthService.t World;
  _accountService : AccountService.t T World;
  _externalAccountService : ExternalAccountService.t T World
}.

(** ** Service calls and traces *)

(** One constructor per method the controller calls, with its arguments. *)
Inductive Call (T : Typings) :=
| IsAuthorizedAccount (accountId source : Z) (roles : list AccountRole)
| HandleGetMyAccounts (source : Z)
| GetTotalBankBalance (source : Z)
| HandleCreateAccount (req : Request (PreDBAccount T))
| HandleDeleteAccount (req : Request AccountIdInput)
| CreateAccount (req : Request (CreateSharedInput T))
| HandleDepositMoney (req : Request (ATMInput T))
| HandleWithdrawMoney (req : Request (ATMInput T))
| HandleSetDefaultAccount (req : Request AccountIdInput)
| HandleRenameAccount (req : Request (RenameAccountInput T))
| AddUserToShared (req : Request (AddToSharedAccountInput T))
| RemoveUserFromShared (req : Request (RemoveFromSharedAccountInput T))
| GetUsersFromShared (req : Request AccountIdInput)
| AddMoney (req : Request (AddBankBalanceInput T))
| RemoveMoney (req : Request (AddBankBalanceInput T))
| CreateInitialAccount (source : Z)
| HandleAddAccount (req : Request (ExternalAccount T))
| GetAccounts (req : Request unit).
Arguments IsAuthorizedAccount {T} accountId source roles.
Arguments HandleGetMyAccounts {T} source.
Arguments GetTotalBankBalance {T} source.
Arguments HandleCreateAccount {T} req.
Arguments HandleDeleteAccount {T} req.
Arguments CreateAccount {T} req.
Arguments HandleDepositMoney {T} req.
Arguments HandleWithdrawMoney {T} req.
Arguments HandleRenameAccount {T} req.
Arguments AddUserToShared {T} req.
Arguments RemoveUserFromShared {T} req.
Arguments AddMoney {T} req.
Arguments RemoveMoney {T} req.
Arguments HandleAddAccount {T} req.
Arguments HandleSetDefaultAccount {T} req.
Arguments GetUsersFromShared {T} req.
Arguments CreateInitialAccount {T} source.
Arguments GetAccounts {T} req.

(** What a handler does that can be seen from outside it. *)
Inductive Event (T : Typings) :=
| EvAwait (c : Call T) (thrown : option JsError)  (* [await c], and what it threw *)
| EvFloat (c : Call T)                            (* [c] called, promise dropped *)
| EvUnhandledRejection (e : JsError)              (* a dropped promise rejected *)
| EvRes (r : ServerPromiseResp T)                 (* [res(r)] *)
| EvConsoleError (e : JsError).                   (* [console.error(e)] *)
Arguments EvAwait {T} c thrown.
Arguments EvFloat {T} c.
Arguments EvUnhandledRejection {T} e.
Arguments EvRes {T} r.
Arguments EvConsoleError {T} e.

Definition Trace (T : Typings) := list (Event T).


(** Every call of a trace, awaited or not, in order. *)
Fixpoint calls {T} (tr : Trace T) : list (Call T) :=
  match tr with
  | [] => []
  | EvAwait c _ :: tr' => c :: calls tr'
  | EvFloat c :: tr' => c :: calls tr'
  | _ :: tr' => calls tr'
  end.

(** The replies of a trace, in order. *)
Fixpoint replies {T} (tr : Trace T) : list (ServerPromiseResp T) :=
  match tr with
  | [] => []
  | EvRes r :: tr' => r :: replies tr'
  | _ :: tr' => replies tr'
  end.

(** The errors the awaited calls of a trace threw, in order. *)
Fixpoint thrown_errors {T} (tr : Trace T) : list JsError :=
  match tr with
  | [] => []
  | EvAwait _ (Some e) :: tr' => e :: thrown_errors tr'
  | _ :: tr' => thrown_errors tr'
  end.

(** What was written with [console.error], in order. *)
Fixpoint console_errors {T} (tr : Trace T) : list JsError :=
  match tr with
  | [] => []
  | EvConsoleError e :: tr' => e :: console_errors tr'
  | _ :: tr' => console_errors tr'
  end.


(** ** The handler monad *)

(** A run of a handler: what it did, the state it left, and how it completed.
    [Rejected e] is an exception that escaped the handler. *)
Record Run (T : Typings) (World A : Type) := {
  events : Trace T;
  final : World;
  completion : Outcome A
}.

Definition Handler (T : Typings) (World A : Type) := World -> Run T World A.

Section Monad.
Context {T : Typings} {World : Type}.

Definition ret {A} (a : A) : Handler T World A :=
  fun w => {| events := []; final := w; completion := Resolved a |}.

Definition bind {A B} (m : Handler T World A) (k : A -> Handler T World B)
  : Handler T World B :=
  fun w =>
    let r := m w in
    match completion r with
    | Resolved a =>
        let r' := k a (final r) in
        {| events := events r ++ events r';
           final := final r';
           completion := completion r' |}
    | Rejected e =>
        {| events := events r; final := final r; completion := Rejected e |}
    end.

(** [try { m } catch (err) { h err }] *)
Definition try_catch {A} (m : Handler T World A) (h : JsError -> Handler T World A)
  : Handler T World A :=
  fun w =>
    let r := m w in
    match completion r with
    | Resolved _ => r
    | Rejected e =>
        let r' := h e (final r) in
        {| events := events r ++ events r';
           final := final r';
           completion := completion r' |}
    end.

(** [res(r)] *)
Definition res (r : ServerPromiseResp T) : Handler T World unit :=
  fun w => {| events := [EvRes r]; final := w; completion := Resolved tt |}.

(** [console.error(e)] *)
Definition console_error (e : JsError) : Handler T World unit :=
  fun w => {| events := [EvConsoleError e]; final := w; completion := Resolved tt |}.

(** [await m], where [m] is the promise of the call [c]: the handler goes on
    with the value, or the error is thrown at the [await]. *)
Definition await_promise {A} (c : Call T) (m : Async World A) : Handler T World A :=
  fun w =>
    let (o, w') := m w in
    {| events := [EvAwait c (rejection o)]; final := w'; completion := o |}.

(** A call whose promise is neither awaited nor kept.  The method is called
    and runs in the world of the handler, which it leaves changed; there is no
    scheduler here, so it runs to its settlement at the call.  The handler
    does not look at the outcome and goes on normally; a rejection has no one
    to catch it and is an unhandled rejection of the process. *)
Definition float_promise {A} (c : Call T) (m : Async World A) : Handler T World unit :=
  fun w =>
    let (o, w') := m w in
    {| events := EvFloat c ::
                 match o with
                 | Resolved _ => []
                 | Rejected e => [EvUnhandledRejection e]
                 end;
       final := w';
       completion := Resolved tt |}.
End Monad.

Declare Scope handler_scope.
Delimit Scope handler_scope with handler.
Bind Scope handler_scope with Handler.
Notation "x <- m ;; k" := (bind m (fun x => k))
  (at level 100, m at next level, k at level 200, right associativity)
  : handler_scope.
Notation "m ;; k" := (bind m (fun _ => k))
  (at level 100, k at level 200, right associativity) : handler_scope.
Local Open Scope handler_scope.

(** The two shapes of reply the controller writes. *)
Definition reply_ok {T} (d : Data T) : ServerPromiseResp T :=
  {| status := ok; rdata := Some d; errorMsg := None; errorName := None |}.

Definition reply_error {T} (msg : string) (nm : option string) : ServerPromiseResp T :=
  {| status := error; rdata := None; errorMsg := Some msg; errorName := nm |}.

(** ** The controller *)

Section Controller.
Variable T : Typings.
Variable World : Type.
Variable this : AccountController T World.

Definition amap {A B} (f : A -> B) (m : Async World A) : Async World B :=
  fun w => let (o, w') := m w in (omap_outcome f o, w').

(** The promise a call returns, its value seen as the handler sees it. *)
Definition perform (c : Call T) : Async World (Data T) :=
  let auth := _auth this in
  let acc := _accountService this in
  let ext := _externalAccountService this in
  match c with
  | IsAuthorizedAccount a s r =>
      amap (fun _ => DUndefined) (AuthService.isAuthorizedAccount auth a s r)
  | HandleGetMyAccounts s =>
      amap DAccounts (AccountService.handleGetMyAccounts acc s)
  | GetTotalBankBalance s =>
      amap DNumber (AccountService.getTotalBankBalance acc s)
  | HandleCreateAccount req =>
      amap DAccount (AccountService.handleCreateAccount acc req)
  | HandleDeleteAccount req =>
      amap (fun _ => DUndefined) (AccountService.handleDeleteAccount acc req)
  | CreateAccount req =>
      amap DAccount (AccountService.createAccount acc req)
  | HandleDepositMoney req =>
      amap (fun _ => DUndefined) (AccountService.handleDepositMoney acc req)
  | HandleWithdrawMoney req =>
      amap (fun _ => DUndefined) (AccountService.handleWithdrawMoney acc req)
  | HandleSetDefaultAccount req =>
      amap (fun _ => DUndefined) (AccountService.handleSetDefaultAccount acc req)
  | HandleRenameAccount req =>
      amap (fun _ => DUndefined) (AccountService.handleRenameAccount acc req)
  | AddUserToShared req =>
      amap (fun _ => DUndefined) (AccountService.addUserToShared acc req)
  | RemoveUserFromShared req =>
      amap (fun _ => DUndefined) (AccountService.removeUserFromShared acc req)
  | GetUsersFromShared req =>
      amap DUsers (AccountService.getUsersFromShared acc req)
  | AddMoney req =>
      amap (fun _ => DUndefined) (AccountService.addMoney acc req)
  | RemoveMoney req =>
      amap (fun _ => DUndefined) (AccountService.removeMoney acc req)
  | CreateInitialAccount s =>
      amap DAccount (AccountService.createInitialAccount acc s)
  | HandleAddAccount req =>
      amap (fun _ => DUndefined) (ExternalAccountService.handleAddAccount ext req)
  | GetAccounts req =>
      amap DExternal (ExternalAccountService.getAccounts ext req)
  end.

Definition await (c : Call T) : Handler T World (Data T) :=
  await_promise c (perform c).

Definition call_floating (c : Call T) : Handler T World unit :=
  float_promise c (perform c).

Definition getAccounts (req : Request unit) : Handler T World unit :=
  accounts <- await (HandleGetMyAccounts (source req)) ;;
  res (reply_ok accounts).

Definition getTotalBankBalance (req : Request unit) : Handler T World unit :=
  balance <- await (GetTotalBankBalance (source req)) ;;
  res (reply_ok balance).

Definition createAccount (req : Request (PreDBAccount T)) : Handler T World unit :=
  try_catch
    (account <- await (HandleCreateAccount req) ;;
     res (reply_ok account))
    (fun err => res (reply_error (message err) None)).

Definition deleteAccount (req : Request AccountIdInput) : Handler T World unit :=
  try_catch
    (await (IsAuthorizedAccount (accountId (data req)) (source req) [Owner]) ;;
     await (HandleDeleteAccount req) ;;
     res (reply_ok DEmpty))
    (fun err => res (reply_error (message err) None)).

Definition exportCreateAccount (req : Request (CreateSharedInput T))
  : Handler T World unit :=
  try_catch
    (account <- await (CreateAccount req) ;;
     res (reply_ok account))
    (fun err => res (reply_error (message err) None)).

Definition depositMoney (req : Request (ATMInput T)) : Handler T World unit :=
  try_catch
    (await (HandleDepositMoney req) ;;
     res (reply_ok DEmpty))
    (fun err => res (reply_error (message err) None)).

(** [accountId && (await ...)]: the check is made when [accountId] is
    truthy, that is present and not [0]. *)
Definition withdrawMoney (req : Request (ATMInput T)) : Handler T World unit :=
  let accountId := ATMInput_accountId T (data req) in
  try_catch
    (match accountId with
     | Some id =>
         if id =? 0 then ret tt
         else await (IsAuthorizedAccount id (source req) [Admin]) ;; ret tt
     | None => ret tt
     end ;;
     await (HandleWithdrawMoney req) ;;
     res (reply_ok DEmpty))
    (fun err =>
       console_error err ;;
       res (reply_error (message err) None)).

Definition setDefaultAccount (req : Request AccountIdInput) : Handler T World unit :=
  try_catch
    (await (IsAuthorizedAccount (accountId (data req)) (source req) [Admin]) ;;
     await (HandleSetDefaultAccount req) ;;
     res (reply_ok DEmpty))
    (fun err => res (reply_error (message err) None)).

Definition renameAccount (req : Request (RenameAccountInput T))
  : Handler T World unit :=
  try_catch
    (await (IsAuthorizedAccount
              (RenameAccountInput_accountId T (data req)) (source req) [Admin]) ;;
     await (HandleRenameAccount req) ;;
     res (reply_ok DEmpty))
    (fun err => res (reply_error (message err) None)).

Definition addSharedAccountUser (req : Request (AddToSharedAccountInput T))
  : Handler T World unit :=
  try_catch
    (await (IsAuthorizedAccount
              (AddToSharedAccountInput_accountId T (data req)) (source req) [Admin]) ;;
     await (AddUserToShared req) ;;
     res (reply_ok DEmpty))
    (fun err => res (reply_error (message err) None)).

Definition removeSharedAccountUser (req : Request (RemoveFromSharedAccountInput T))
  : Handler T World unit :=
  try_catch
    (await (IsAuthorizedAccount
              (RemoveFromSharedAccountInput_accountId T (data req)) (source req)
              [Admin]) ;;
     await (RemoveUserFromShared req) ;;
     res (reply_ok DEmpty))
    (fun err => res (reply_error (message err) None)).

Definition getUsersFromSharedAccount (req : Request AccountIdInput)
  : Handler T World unit :=
  try_catch
    (await (IsAuthorizedAccount (accountId (data req)) (source req)
              [Admin; Contributor]) ;;
     data <- await (GetUsersFromShared req) ;;
     res (reply_ok data))
    (fun err => res (reply_error (message err) None)).

Definition addExternalAccount (req : Request (ExternalAccount T))
  : Handler T World unit :=
  try_catch
    (await (HandleAddAccount req) ;;
     res (reply_ok DEmpty))
    (fun err => res (reply_error (message err) None)).

Definition getExternalAccounts (req : Request unit) : Handler T World unit :=
  try_catch
    (data <- await (GetAccounts req) ;;
     res (reply_ok data))
    (fun err => res (reply_error (message err) (Some (name err)))).

(** The two exports below are declared on different request types,
    [{ amount; message }] and [AddBankBalanceInput]; both hand the request
    object as it is to [addMoney], so its parameter type is the type of
    both. *)
Definition addBankBalance (req : Request (AddBankBalanceInput T))
  : Handler T World unit :=
  try_catch
    (await (AddMoney req) ;;
     res (reply_ok DEmpty))
    (fun err => res (reply_error (message err) None)).

Definition addBankBalanceByIdentifier (req : Request (AddBankBalanceInput T))
  : Handler T World unit :=
  try_catch
    (await (AddMoney req) ;;
     res (reply_ok DEmpty))
    (fun err => res (reply_error (message err) None)).

Definition removeBankBalance (req : Request (AddBankBalanceInput T))
  : Handler T World unit :=
  try_catch
    (await (RemoveMoney req) ;;
     res (reply_ok DEmpty))
    (fun err => res (reply_error (message err) None)).

(** No [await], no [res]: the promise of [createInitialAccount] is left
    floating. *)
Definition onUserLoaded (user : OnlineUser T) : Handler T World unit :=
  let src := OnlineUser_source T user in
  call_floating (CreateInitialAccount src).

End Controller.

Arguments perform : simpl never.

(** ** Routing *)

(** The operations bound by [@NetPromise] and [@Export]: those that are given
    a request and a reply callback. *)
Inductive Operation (T : Typings) :=
| OpGetAccounts (req : Request unit)
| OpGetTotalBankBalance (req : Request unit)
| OpCreateAccount (req : Request (PreDBAccount T))
| OpDeleteAccount (req : Request AccountIdInput)
| OpExportCreateAccount (req : Request (CreateSharedInput T))
| OpDepositMoney (req : Request (ATMInput T))
| OpWithdrawMoney (req : Request (ATMInput T))
| OpSetDefaultAccount (req : Request AccountIdInput)
| OpRenameAccount (req : Request (RenameAccountInput T))
| OpAddSharedAccountUser (req : Request (AddToSharedAccountInput T))
| OpRemoveSharedAccountUser (req : Request (RemoveFromSharedAccountInput T))
| OpGetUsersFromSharedAccount (req : Request AccountIdInput)
| OpAddExternalAccount (req : Request (ExternalAccount T))
| OpGetExternalAccounts (req : Request unit)
| OpAddBankBalance (req : Request (AddBankBalanceInput T))
| OpAddBankBalanceByIdentifier (req : Request (AddBankBalanceInput T))
| OpRemoveBankBalance (req : Request (AddBankBalanceInput T)).
Arguments OpGetAccounts {T} req.
Arguments OpGetTotalBankBalance {T} req.
Arguments OpCreateAccount {T} req.
Arguments OpDeleteAccount {T} req.
Arguments OpExportCreateAccount {T} req.
Arguments OpDepositMoney {T} req.
Arguments OpWithdrawMoney {T} req.
Arguments OpSetDefaultAccount {T} req.
Arguments OpRenameAccount {T} req.
Arguments OpAddSharedAccountUser {T} req.
Arguments OpRemoveSharedAccountUser {T} req.
Arguments OpGetUsersFromSharedAccount {T} req.
Arguments OpAddExternalAccount {T} req.
Arguments OpGetExternalAccounts {T} req.
Arguments OpAddBankBalance {T} req.
Arguments OpAddBankBalanceByIdentifier {T} req.
Arguments OpRemoveBankBalance {T} req.

Definition handle {T World} (this : AccountController T World) (op : Operation T)
  : Handler T World unit :=
  match op with
  | OpGetAccounts req => getAccounts this req
  | OpGetTotalBankBalance req => getTotalBankBalance this req
  | OpCreateAccount req => createAccount this req
  | OpDeleteAccount req => deleteAccount this req
  | OpExportCreateAccount req => exportCreateAccount this req
  | OpDepositMoney req => depositMoney this req
  | OpWithdrawMoney req => withdrawMoney this req
  | OpSetDefaultAccount req => setDefaultAccount this req
  | OpRenameAccount req => renameAccount this req
  | OpAddSharedAccountUser req => addSharedAccountUser this req
  | OpRemoveSharedAccountUser req => removeSharedAccountUser this req
  | OpGetUsersFromSharedAccount req => getUsersFromSharedAccount this req
  | OpAddExternalAccount req => addExternalAccount this req
  | OpGetExternalAccounts req => getExternalAccounts this req
  | OpAddBankBalance req => addBankBalance this req
  | OpAddBankBalanceByIdentifier req => addBankBalanceByIdentifier this req
  | OpRemoveBankBalance req => removeBankBalance this req
  end.

(** Whether the body of the operation's handler is a [try]/[catch]: all are,
    but [getAccounts] and [getTotalBankBalance]. *)
Definition in_try_catch {T} (op : Operation T) : bool :=
  match op with
  | OpGetAccounts _ | OpGetTotalBankBalance _ => false
  | _ => true
  end.

(** The [errorName] a handler's [catch] puts in its reply: only
    [getExternalAccounts] forwards [err.name]. *)
Definition forwarded_name {T} (op : Operation T) (e : JsError) : option string :=
  match op with
  | OpGetExternalAccounts _ => Some (name e)
  | _ => None
  end.

(** ** The authorization core, from the specification *)

Module LedgerSpec.

Inductive AccountKind := Personal | Shared.

Record Account := {
  id : Z;
  ownerId : string;
  kind : AccountKind;
  name : string;
  balance : Z;
  isDefault : bool;
  createdAt : Z
}.

Record SharedAccountUser := {
  accountId : Z;
  userId : string;
  role : AccountRole;
  addedAt : Z
}.

(** The records of the Ledger Store, the lines written to the log, and
    whether the store can be reached. *)
Record Ledger := {
  accounts : gmap Z Account;
  members : list SharedAccountUser;
  logged : list string;
  available : bool
}.

Inductive ErrorKind := NotFound | Unauthorized | StorageUnavailable.

Definition kind_text (k : ErrorKind) : string :=
  match k with
  | NotFound => "NotFound"
  | Unauthorized => "Unauthorized"
  | StorageUnavailable => "StorageUnavailable"
  end.

(** A failure as the controller receives it: thrown, its kind as the
    [name] and as the [message]. *)
Definition failure (k : ErrorKind) : JsError :=
  Build_JsError (kind_text k) (kind_text k).

(** Modelled from the spec: the role hierarchy of section 3, Owner ⊇ Admin ⊇
    Contributor, as the checks a holder of a role passes.  The registry is
    [auth.service.ts], which is not among the sources. *)
Definition passes_as (r : AccountRole) : list AccountRole :=
  match r with
  | Owner => [Owner; Admin; Contributor]
  | Admin => [Admin; Contributor]
  | Contributor => [Contributor]
  end.

Definition membership (st : Ledger) (account : Z) (actor : string)
  : option SharedAccountUser :=
  List.find
    (fun m => bool_decide (accountId m = account) && bool_decide (userId m = actor))
    (members st).

(** Modelled from the spec: [authorize] of the Role Registry (section 4.1),
    which stands for [AuthService.isAuthorizedAccount] of [auth.service.ts],
    not among the sources.  [NotFound] when the account does not exist; a
    Personal account authorizes by identity match with [ownerId] alone; on a
    Shared account an actor without membership is [Unauthorized], and a
    member succeeds iff the role, expanded by the hierarchy, meets
    [requiredRoles]. *)
Definition authorize (st : Ledger) (account : Z) (actor : string)
    (requiredRoles : list AccountRole) : option ErrorKind :=
  match accounts st !! account with
  | None => Some NotFound
  | Some a =>
      match kind a with
      | Personal =>
          if bool_decide (ownerId a = actor) then None else Some Unauthorized
      | Shared =>
          match membership st account actor with
          | None => Some Unauthorized
          | Some m =>
              if existsb (fun r => bool_decide (r ∈ requiredRoles))
                   (passes_as (role m))
              then None else Some Unauthorized
          end
      end
  end.

(** [actor] is a member of the Shared account [account] with role [r]. *)
Definition holds_role (st : Ledger) (account : Z) (actor : string)
    (r : AccountRole) : Prop :=
  exists a m,
    accounts st !! account = Some a /\ kind a = Shared /\
    membership st account actor = Some m /\ role m = r.

Section Registry.
(** Identity resolution, an external collaborator: the user id of a
    session handle. *)
Variable identity : Z -> string.

(** Modelled from the spec: the Role Registry behind the controller's
    [_auth]; a pure read and a decision, no side effect (section 4.1). *)
Definition isAuthorizedAccount (account source : Z) (roles : list AccountRole)
  : Async Ledger unit :=
  fun st =>
    match authorize st account (identity source) roles with
    | None => (Resolved tt, st)
    | Some k => (Rejected (failure k), st)
    end.

Definition auth : AuthService.t Ledger :=
  {| AuthService.isAuthorizedAccount := isAuthorizedAccount |}.
End Registry.

End LedgerSpec.

(** ** Reading a run *)

(** A call [c] of the trace is awaited only after [chk] was awaited and did
    not throw. *)
Definition only_after {T} (chk c : Call T) (tr : Trace T) : Prop :=
  forall pre o post, tr = pre ++ EvAwait c o :: post -> In (EvAwait chk None) pre.

(** The run [r] of a handler, started in [w], is gated by the check [chk]:
    the check is awaited before anything else; when it throws [e], it is the
    only call made, the world is as the check left it, the one reply is the
    error reply with [e.message], and the handler completes; when it passes,
    the call [c] follows, and the world is as [c] left it; and [c] is never
    awaited but after a check that did not throw. *)
Definition gated_by {T World} (this : AccountController T World)
    (chk c : Call T) (r : Run T World unit) (w : World) : Prop :=
  (exists o tl, events r = EvAwait chk o :: tl) /\
  (forall e w1, perform this chk w = (Rejected e, w1) ->
     calls (events r) = [chk] /\ final r = w1 /\
     replies (events r) = [reply_error (message e) None] /\
     completion r = Resolved tt) /\
  (forall u w1, perform this chk w = (Resolved u, w1) ->
     calls (events r) = [chk; c] /\ final r = snd (perform this c w1)) /\
  only_after chk c (events r).

Section Shapes.
Variable T : Typings.
Variable World : Type.
Variable this : AccountController T World.

(** Two shapes cover every handler that has a [try]/[catch], but
    [withdrawMoney]: one awaited call, or a check and then a call. *)
Definition direct (c : Call T) (k : Data T -> ServerPromiseResp T)
    (nm : JsError -> option string) : Handler T World unit :=
  try_catch
    (d <- await this c ;; res (k d))
    (fun err => res (reply_error (message err) (nm err))).

Definition checked (chk c : Call T) (k : Data T -> ServerPromiseResp T)
  : Handler T World unit :=
  try_catch
    (await this chk ;; d <- await this c ;; res (k d))
    (fun err => res (reply_error (message err) None)).

End Shapes.

(** ** A bank to run the handlers on *)

Module Scenario.
Record ATM := { atm_amount : Z; atm_message : string; atm_accountId : option Z }.
Record Rename := { rename_accountId : Z; rename_name : string }.
Record Member := { member_accountId : Z; member_identifier : string }.
Record Balance := { balance_amount : Z; balance_message : string }.

Definition typings : Typings :=
  {| Account := LedgerSpec.Account;
     PreDBAccount := string;
     CreateSharedInput := string;
     ExternalAccount := string;
     SharedAccountUser := LedgerSpec.SharedAccountUser;
     ATMInput := ATM;
     RenameAccountInput := Rename;
     AddToSharedAccountInput := Member;
     RemoveFromSharedAccountInput := Member;
     AddBankBalanceInput := Balance;
     OnlineUser := Z;
     ATMInput_accountId := atm_accountId;
     RenameAccountInput_accountId := rename_accountId;
     AddToSharedAccountInput_accountId := member_accountId;
     RemoveFromSharedAccountInput_accountId := member_accountId;
     OnlineUser_source := fun src => src |}.

(** Sessions 1, 2 and 3 are alice, bob and carol. *)
Definition identity (source : Z) : string :=
  if source =? 1 then "alice"
  else if source =? 2 then "bob"
  else if source =? 3 then "carol"
  else "nobody".

(** Account 10 is shared: alice owns it, bob contributes, carol
    administers.  Account 20 is alice's personal default account. *)
Definition joint : LedgerSpec.Account :=
  {| LedgerSpec.id := 10; LedgerSpec.ownerId := "alice";
     LedgerSpec.kind := LedgerSpec.Shared; LedgerSpec.name := "joint";
     LedgerSpec.balance := 100; LedgerSpec.isDefault := false;
     LedgerSpec.createdAt := 0 |}.

Definition personal : LedgerSpec.Account :=
  {| LedgerSpec.id := 20; LedgerSpec.ownerId := "alice";
     LedgerSpec.kind := LedgerSpec.Personal; LedgerSpec.name := "alice";
     LedgerSpec.balance := 20; LedgerSpec.isDefault := true;
     LedgerSpec.createdAt := 0 |}.

Definition member (account : Z) (user : string) (r : AccountRole) (at_ : Z)
  : LedgerSpec.SharedAccountUser :=
  {| LedgerSpec.accountId := account; LedgerSpec.userId := user;
     LedgerSpec.role := r; LedgerSpec.addedAt := at_ |}.

Definition bank : LedgerSpec.Ledger :=
  {| LedgerSpec.accounts := <[10 := joint]> (<[20 := personal]> ∅);
     LedgerSpec.members :=
       [ member 10 "alice" Owner 0; member 10 "bob" Contributor 1;
         member 10 "carol" Admin 2 ];
     LedgerSpec.logged := [];
     LedgerSpec.available := true |}.

(** The same bank while the store cannot be reached. *)
Definition bank_down : LedgerSpec.Ledger :=
  {| LedgerSpec.accounts := LedgerSpec.accounts bank;
     LedgerSpec.members := LedgerSpec.members bank;
     LedgerSpec.logged := [];
     LedgerSpec.available := false |}.

(** A method of the stand-in below: it answers [a] when the store can be
    reached and throws [StorageUnavailable] when it cannot. *)
Definition stored {A} (a : A) : Async LedgerSpec.Ledger A :=
  fun st =>
    if LedgerSpec.available st then (Resolved a, st)
    else (Rejected (LedgerSpec.failure LedgerSpec.StorageUnavailable), st).

Definition members_of (account : Z) : Async LedgerSpec.Ledger (list LedgerSpec.SharedAccountUser) :=
  fun st =>
    if LedgerSpec.available st
    then (Resolved (List.filter (fun m => bool_decide (LedgerSpec.accountId m = account))
                      (LedgerSpec.members st)), st)
    else (Rejected (LedgerSpec.failure LedgerSpec.StorageUnavailable), st).

(** A stand-in for [account.service.ts], enough to run the handlers: the
    members of a shared account are read from the ledger, and the other
    methods only need the store.  The theorems below hold of every service;
    this one gives them inputs. *)
Definition accountService : AccountService.t typings LedgerSpec.Ledger :=
  @AccountService.Build_t typings LedgerSpec.Ledger
    (* handleGetMyAccounts *) (fun _ => stored [personal; joint])
    (* getTotalBankBalance *) (fun _ => stored 120)
    (* handleCreateAccount *) (fun _ => stored personal)
    (* handleDeleteAccount *) (fun _ => stored tt)
    (* createAccount *) (fun _ => stored joint)
    (* handleDepositMoney *) (fun _ => stored tt)
    (* handleWithdrawMoney *) (fun _ => stored tt)
    (* handleSetDefaultAccount *) (fun _ => stored tt)
    (* handleRenameAccount *) (fun _ => stored tt)
    (* addUserToShared *) (fun _ => stored tt)
    (* removeUserFromShared *) (fun _ => stored tt)
    (* getUsersFromShared *) (fun req => members_of (accountId (data req)))
    (* addMoney *) (fun _ => stored tt)
    (* removeMoney *) (fun _ => stored tt)
    (* createInitialAccount *) (fun _ => stored personal).

Definition externalAccountService
  : ExternalAccountService.t typings LedgerSpec.Ledger :=
  @ExternalAccountService.Build_t typings LedgerSpec.Ledger
    (* handleAddAccount *) (fun _ => stored tt)
    (* getAccounts *) (fun _ => stored []).

Definition controller : AccountController typings LedgerSpec.Ledger :=
  {| _auth := LedgerSpec.auth identity;
     _accountService := accountService;
     _externalAccountService := externalAccountService |}.

(** Requests: bob, a Contributor of account 10, and alice. *)
Definition bob_on_joint : Request AccountIdInput :=
  {| source := 2; data := {| accountId := 10 |} |}.

Definition alice_on_joint : Request AccountIdInput :=
  {| source := 1; data := {| accountId := 10 |} |}.

Definition bob_removes_carol
  : Request (RemoveFromSharedAccountInput typings) :=
  {| source := 2;
     data := {| member_accountId := 10; member_identifier := "carol" |} |}.

Definition bob_adds_dave : Request (AddToSharedAccountInput typings) :=
  {| source := 2;
     data := {| member_accountId := 10; member_identifier := "dave" |} |}.

Definition bob_renames_joint : Request (RenameAccountInput typings) :=
  {| source := 2; data := {| rename_accountId := 10; rename_name := "mine" |} |}.

(** A withdrawal that names no account: it is for the default account. *)
Definition bob_withdraws_unnamed : Request (ATMInput typings) :=
  {| source := 2;
     data := {| atm_amount := 30; atm_message := "cash"; atm_accountId := None |} |}.

Definition bob_withdraws_joint : Request (ATMInput typings) :=
  {| source := 2;
     data := {| atm_amount := 30; atm_message := "cash";
                atm_accountId := Some 10 |} |}.

Definition alice_deposits : Request (ATMInput typings) :=
  {| source := 1;
     data := {| atm_amount := 5; atm_message := "tip"; atm_accountId := Some 10 |} |}.

Definition alice_asks : Request unit := {| source := 1; data := tt |}.

Definition alice_creates_savings : Request (PreDBAccount typings) :=
  {| source := 1; data := "savings" |}.

Definition alice_adds_balance : Request (AddBankBalanceInput typings) :=
  {| source := 1; data := {| balance_amount := 7; balance_message := "gift" |} |}.
End Scenario.

(** ** The operations, tabulated *)

(** The authorization check an operation starts with, if it makes one: the
    account and the role list are those of the handler, the source is the
    request's.  [withdrawMoney] checks a truthy [accountId] only. *)
Definition check_of {T} (op : Operation T) : option (Call T) :=
  match op with
  | OpDeleteAccount req =>
      Some (IsAuthorizedAccount (accountId (data req)) (source req) [Owner])
  | OpWithdrawMoney req =>
      match ATMInput_accountId T (data req) with
      | Some id =>
          if id =? 0 then None
          else Some (IsAuthorizedAccount id (source req) [Admin])
      | None => None
      end
  | OpSetDefaultAccount req =>
      Some (IsAuthorizedAccount (accountId (data req)) (source req) [Admin])
  | OpRenameAccount req =>
      Some (IsAuthorizedAccount (RenameAccountInput_accountId T (data req))
              (source req) [Admin])
  | OpAddSharedAccountUser req =>
      Some (IsAuthorizedAccount (AddToSharedAccountInput_accountId T (data req))
              (source req) [Admin])
  | OpRemoveSharedAccountUser req =>
      Some (IsAuthorizedAccount
              (RemoveFromSharedAccountInput_accountId T (data req))
              (source req) [Admin])
  | OpGetUsersFromSharedAccount req =>
      Some (IsAuthorizedAccount (accountId (data req)) (source req)
              [Admin; Contributor])
  | _ => None
  end.

(** The service method an operation delegates to, with its argument. *)
Definition delegate_of {T} (op : Operation T) : Call T :=
  match op with
  | OpGetAccounts req => HandleGetMyAccounts (source req)
  | OpGetTotalBankBalance req => GetTotalBankBalance (source req)
  | OpCreateAccount req => HandleCreateAccount req
  | OpDeleteAccount req => HandleDeleteAccount req
  | OpExportCreateAccount req => CreateAccount req
  | OpDepositMoney req => HandleDepositMoney req
  | OpWithdrawMoney req => HandleWithdrawMoney req
  | OpSetDefaultAccount req => HandleSetDefaultAccount req
  | OpRenameAccount req => HandleRenameAccount req
  | OpAddSharedAccountUser req => AddUserToShared req
  | OpRemoveSharedAccountUser req => RemoveUserFromShared req
  | OpGetUsersFromSharedAccount req => GetUsersFromShared req
  | OpAddExternalAccount req => HandleAddAccount req
  | OpGetExternalAccounts req => GetAccounts req
  | OpAddBankBalance req => AddMoney req
  | OpAddBankBalanceByIdentifier req => AddMoney req
  | OpRemoveBankBalance req => RemoveMoney req
  end.


(** Whether an operation is served by [_externalAccountService]. *)
Definition uses_external {T} (op : Operation T) : bool :=
  match op with
  | OpAddExternalAccount _ | OpGetExternalAccounts _ => true
  | _ => false
  end.

(** The world in which an operation's delegate is called: the one the check
    left, or the initial one when there is no check. *)
Definition world_after_check {T World} (this : AccountController T World)
    (op : Operation T) (w : World) : World :=
  match check_of op with
  | Some chk => snd (perform this chk w)
  | None => w
  end.

(** * Properties *)

Section ShapeFacts.
Variable T : Typings.
Variable World : Type.
Variable this : AccountController T World.

Lemma direct_run c k nm w :
  direct this c k nm w =
  match perform this c w with
  | (Resolved d, w1) =>
      {| events := [EvAwait c None; EvRes (k d)];
         final := w1; completion := Resolved tt |}
  | (Rejected e, w1) =>
      {| events := [EvAwait c (Some e); EvRes (reply_error (message e) (nm e))];
         final := w1; completion := Resolved tt |}
  end.
Proof.
  unfold direct, try_catch, bind, await, await_promise, res.
  destruct (perform this c w) as [[d|e] w1]; reflexivity.
Qed.

Lemma checked_run chk c k w :
  checked this chk c k w =
  match perform this chk w with
  | (Rejected e, w1) =>
      {| events := [EvAwait chk (Some e); EvRes (reply_error (message e) None)];
         final := w1; completion := Resolved tt |}
  | (Resolved _, w1) =>
      match perform this c w1 with
      | (Resolved d, w2) =>
          {| events := [EvAwait chk None; EvAwait c None; EvRes (k d)];
             final := w2; completion := Resolved tt |}
      | (Rejected e, w2) =>
          {| events := [EvAwait chk None; EvAwait c (Some e);
                        EvRes (reply_error (message e) None)];
             final := w2; completion := Resolved tt |}
      end
  end.
Proof.
  unfold checked, try_catch, bind, await, await_promise, res.
  destruct (perform this chk w) as [[u|e] w1]; simpl; [|reflexivity].
  destruct (perform this c w1) as [[d|e] w2]; reflexivity.
Qed.

Lemma only_after_head (chk c : Call T) tl :
  c <> chk -> only_after chk c (EvAwait chk None :: tl).
Proof.
  intros Hne pre o post Heq.
  destruct pre as [|x pre]; simpl in Heq; injection Heq as Hx _.
  - congruence.
  - subst x. left. reflexivity.
Qed.

Lemma only_after_absent (chk c : Call T) tr :
  ~ In c (calls tr) -> only_after chk c tr.
Proof.
  intros Hno pre o post ->. exfalso. apply Hno. clear Hno.
  induction pre as [|x pre IH]; simpl.
  - left. reflexivity.
  - destruct x; simpl; auto.
Qed.

Lemma checked_gate chk c k w :
  c <> chk -> gated_by this chk c (checked this chk c k w) w.
Proof.
  intros Hne. unfold gated_by. rewrite checked_run.
  destruct (perform this chk w) as [[u|e] w1].
  - destruct (perform this c w1) as [[d|e] w2] eqn:Hc; simpl;
      (split; [eauto|]); (split; [discriminate|]);
      (split; [intros ? ? [= <- <-]; by rewrite Hc | by apply only_after_head]).
  - simpl. split; [eauto|]. split; [intros ? ? [= <- <-]; auto|].
    split; [discriminate|].
    apply only_after_absent. simpl. intros [H|[]]. congruence.
Qed.
End ShapeFacts.

(** C3.  [deleteAccount] awaits the Owner check on the request's account
    before anything else.  When the check throws [e], the check is the only
    call made, so [handleDeleteAccount] is not invoked and the world is as the
    check left it; the one reply has status [error] and [e.message] as its
    [errorMsg]; nothing escapes the handler.  When the check passes, the
    deletion is the next call, and in every run it is awaited only after a
    check that did not throw. *)
Theorem deleteAccount_owner_check_first T World
    (this : AccountController T World) (req : Request AccountIdInput) (w : World) :
  gated_by this
    (IsAuthorizedAccount (accountId (data req)) (source req) [Owner])
    (HandleDeleteAccount req)
    (deleteAccount this req w) w.
Proof. by apply (checked_gate this (fun _ => reply_ok DEmpty)). Qed.

Lemma deleteAccount_owner_check_first_witness :
  calls (events (deleteAccount Scenario.controller Scenario.bob_on_joint Scenario.bank))
    = [IsAuthorizedAccount 10 2 [Owner]] /\
  replies (events (deleteAccount Scenario.controller Scenario.bob_on_joint Scenario.bank))
    = [reply_error "Unauthorized" None] /\
  final (deleteAccount Scenario.controller Scenario.bob_on_joint Scenario.bank)
    = Scenario.bank.
Proof.
  destruct (deleteAccount_owner_check_first
              Scenario.controller Scenario.bob_on_joint Scenario.bank)
    as (_ & Hthrows & _).
  destruct (Hthrows (LedgerSpec.failure LedgerSpec.Unauthorized) Scenario.bank eq_refl)
    as (Hcalls & Hfinal & Hreplies & _).
  split; [exact Hcalls | split; [exact Hreplies | exact Hfinal]].
Defined.

(** C7.  [setDefaultAccount] and [renameAccount] are gated by the Admin check
    on the request's account: the check is awaited first, the mutation
    ([handleSetDefaultAccount], [handleRenameAccount]) is awaited only after
    it passed, and when it throws the mutation is not called and the reply
    has status [error]. *)
Theorem setDefault_and_rename_admin_check_first T World
    (this : AccountController T World)
    (reqD : Request AccountIdInput) (reqR : Request (RenameAccountInput T))
    (w : World) :
  gated_by this
    (IsAuthorizedAccount (accountId (data reqD)) (source reqD) [Admin])
    (HandleSetDefaultAccount reqD)
    (setDefaultAccount this reqD w) w /\
  gated_by this
    (IsAuthorizedAccount (RenameAccountInput_accountId T (data reqR)) (source reqR)
       [Admin])
    (HandleRenameAccount reqR)
    (renameAccount this reqR w) w.
Proof.
  split; by apply (checked_gate this (fun _ => reply_ok DEmpty)).
Qed.

Lemma setDefault_and_rename_admin_check_first_witness :
  (calls (events (setDefaultAccount Scenario.controller Scenario.bob_on_joint
                    Scenario.bank))
     = [IsAuthorizedAccount 10 2 [Admin]] /\
   replies (events (setDefaultAccount Scenario.controller Scenario.bob_on_joint
                      Scenario.bank))
     = [reply_error "Unauthorized" None]) /\
  (calls (events (renameAccount Scenario.controller Scenario.bob_renames_joint
                    Scenario.bank))
     = [IsAuthorizedAccount 10 2 [Admin]] /\
   replies (events (renameAccount Scenario.controller Scenario.bob_renames_joint
                      Scenario.bank))
     = [reply_error "Unauthorized" None]).
Proof.
  destruct (setDefault_and_rename_admin_check_first
              Scenario.controller Scenario.bob_on_joint Scenario.bob_renames_joint
              Scenario.bank)
    as [(_ & HD & _) (_ & HR & _)].
  destruct (HD (LedgerSpec.failure LedgerSpec.Unauthorized) Scenario.bank eq_refl)
    as (HDc & _ & HDr & _).
  destruct (HR (LedgerSpec.failure LedgerSpec.Unauthorized) Scenario.bank eq_refl)
    as (HRc & _ & HRr & _).
  split; split; assumption.
Defined.

(** The Role Registry of the specification on a member of a Shared account. *)
Lemma contributor_is_not_admin st account actor :
  LedgerSpec.holds_role st account actor Contributor ->
  LedgerSpec.authorize st account actor [Admin] = Some LedgerSpec.Unauthorized.
Proof.
  intros (a & m & Ha & Hk & Hm & Hr). unfold LedgerSpec.authorize.
  rewrite Ha, Hk, Hm, Hr. reflexivity.
Qed.


(** C4.  [addSharedAccountUser] and [removeSharedAccountUser] are gated by a
    check of the request's account against the role list [[Admin]], and no
    other: the check is awaited first and the membership mutation only after
    it passed.  With the Role Registry of the specification as [_auth], a
    caller who is a Contributor of the account is refused by the check: it is
    the only call made, the reply is the [Unauthorized] failure, and the
    ledger is left as it was, whatever the account service is. *)
Theorem shared_member_change_requires_admin T :
  (forall World (this : AccountController T World)
          (reqA : Request (AddToSharedAccountInput T))
          (reqR : Request (RemoveFromSharedAccountInput T)) (w : World),
     gated_by this
       (IsAuthorizedAccount (AddToSharedAccountInput_accountId T (data reqA))
          (source reqA) [Admin])
       (AddUserToShared reqA)
       (addSharedAccountUser this reqA w) w /\
     gated_by this
       (IsAuthorizedAccount (RemoveFromSharedAccountInput_accountId T (data reqR))
          (source reqR) [Admin])
       (RemoveUserFromShared reqR)
       (removeSharedAccountUser this reqR w) w) /\
  (forall identity acc ext st,
     let this := {| _auth := LedgerSpec.auth identity;
                    _accountService := acc;
                    _externalAccountService := ext |} in
     (forall reqA : Request (AddToSharedAccountInput T),
        let account := AddToSharedAccountInput_accountId T (data reqA) in
        let r := addSharedAccountUser this reqA st in
        LedgerSpec.holds_role st account (identity (source reqA)) Contributor ->
        calls (events r) = [IsAuthorizedAccount account (source reqA) [Admin]] /\
        replies (events r) = [reply_error "Unauthorized" None] /\
        final r = st) /\
     (forall reqR : Request (RemoveFromSharedAccountInput T),
        let account := RemoveFromSharedAccountInput_accountId T (data reqR) in
        let r := removeSharedAccountUser this reqR st in
        LedgerSpec.holds_role st account (identity (source reqR)) Contributor ->
        calls (events r) = [IsAuthorizedAccount account (source reqR) [Admin]] /\
        replies (events r) = [reply_error "Unauthorized" None] /\
        final r = st)).
Proof.
  split.
  - intros World this reqA reqR w.
    split; by apply (checked_gate this (fun _ => reply_ok DEmpty)).
  - intros identity acc ext st this. split.
    + intros reqA account r Hrole.
      pose proof (checked_gate this (fun _ => reply_ok DEmpty) st
                    (c := AddUserToShared reqA)
                    (chk := IsAuthorizedAccount account (source reqA) [Admin])
                    ltac:(discriminate)) as (_ & Hthrows & _).
      destruct (Hthrows (LedgerSpec.failure LedgerSpec.Unauthorized) st)
        as (? & ? & ? & _); [|done].
      unfold perform, amap; simpl. unfold LedgerSpec.isAuthorizedAccount.
      by rewrite (contributor_is_not_admin Hrole).
    + intros reqR account r Hrole.
      pose proof (checked_gate this (fun _ => reply_ok DEmpty) st
                    (c := RemoveUserFromShared reqR)
                    (chk := IsAuthorizedAccount account (source reqR) [Admin])
                    ltac:(discriminate)) as (_ & Hthrows & _).
      destruct (Hthrows (LedgerSpec.failure LedgerSpec.Unauthorized) st)
        as (? & ? & ? & _); [|done].
      unfold perform, amap; simpl. unfold LedgerSpec.isAuthorizedAccount.
      by rewrite (contributor_is_not_admin Hrole).
Qed.

Lemma shared_member_change_requires_admin_witness :
  LedgerSpec.holds_role Scenario.bank 10 "bob" Contributor /\
  calls (events (removeSharedAccountUser Scenario.controller
                   Scenario.bob_removes_carol Scenario.bank))
    = [IsAuthorizedAccount 10 2 [Admin]] /\
  replies (events (removeSharedAccountUser Scenario.controller
                     Scenario.bob_removes_carol Scenario.bank))
    = [reply_error "Unauthorized" None] /\
  final (removeSharedAccountUser Scenario.controller Scenario.bob_removes_carol
           Scenario.bank)
    = Scenario.bank.
Proof.
  assert (Hbob : LedgerSpec.holds_role Scenario.bank 10 "bob" Contributor).
  { exists Scenario.joint, (Scenario.member 10 "bob" Contributor 1).
    repeat split; reflexivity. }
  split; [exact Hbob|].
  destruct (shared_member_change_requires_admin Scenario.typings) as [_ Hspec].
  destruct (Hspec Scenario.identity Scenario.accountService
              Scenario.externalAccountService Scenario.bank) as [_ Hremove].
  exact (Hremove Scenario.bob_removes_carol Hbob).
Defined.



(** ** Withdrawals *)

(** Against C2 as stated: a withdrawal that names no account reaches
    [handleWithdrawMoney] with no authorization check before it.  Bob, who is
    not an Admin of anything, is answered [ok]. *)
Lemma withdrawMoney_unnamed_account_is_not_checked :
  events (withdrawMoney Scenario.controller Scenario.bob_withdraws_unnamed
            Scenario.bank)
    = [EvAwait (HandleWithdrawMoney Scenario.bob_withdraws_unnamed) None;
       EvRes (reply_ok DEmpty)] /\
  calls (events (withdrawMoney Scenario.controller Scenario.bob_withdraws_unnamed
                   Scenario.bank))
    = [HandleWithdrawMoney Scenario.bob_withdraws_unnamed].
Proof. split; reflexivity. Qed.

(** C2, as the code has it.  When the request's [accountId] is truthy (present
    and not [0]), [withdrawMoney] awaits the Admin check on it before anything
    else; when the check throws [e], it is the only call made, so
    [handleWithdrawMoney] is not invoked, [e] is written to the console, the
    one reply has status [error] with [e.message], and the handler completes;
    [handleWithdrawMoney] is awaited only after a check that did not throw.
    When [accountId] is absent or [0], no check is made: the withdrawal is the
    only call. *)
Theorem withdrawMoney_checks_named_account T World
    (this : AccountController T World) (req : Request (ATMInput T)) (w : World) :
  let r := withdrawMoney this req w in
  (forall id, ATMInput_accountId T (data req) = Some id -> id <> 0 ->
     let chk := IsAuthorizedAccount id (source req) [Admin] in
     (exists o tl, events r = EvAwait chk o :: tl) /\
     (forall e w1, perform this chk w = (Rejected e, w1) ->
        calls (events r) = [chk] /\ final r = w1 /\
        console_errors (events r) = [e] /\
        replies (events r) = [reply_error (message e) None] /\
        completion r = Resolved tt) /\
     (forall u w1, perform this chk w = (Resolved u, w1) ->
        calls (events r) = [chk; HandleWithdrawMoney req] /\
        final r = snd (perform this (HandleWithdrawMoney req) w1)) /\
     only_after chk (HandleWithdrawMoney req) (events r)) /\
  (ATMInput_accountId T (data req) = None \/
   ATMInput_accountId T (data req) = Some 0 ->
     calls (events r) = [HandleWithdrawMoney req] /\
     final r = snd (perform this (HandleWithdrawMoney req) w)).
Proof.
  intros r. subst r. split.
  - intros id Hid Hne chk.
    unfold withdrawMoney. rewrite Hid.
    destruct (id =? 0) eqn:Hz; [apply Z.eqb_eq in Hz; contradiction|].
    unfold try_catch, bind, await, await_promise, res, ret, console_error.
    fold chk.
    destruct (perform this chk w) as [[u|e] w1]; simpl.
    + destruct (perform this (HandleWithdrawMoney req) w1) as [[d|e] w2] eqn:Hc;
        simpl; (split; [eauto|]); (split; [discriminate|]);
        (split; [intros ? ? [= <- <-]; by rewrite Hc
                | by apply only_after_head]).
    + split; [eauto|]. split; [intros ? ? [= <- <-]; auto|].
      split; [discriminate|].
      apply only_after_absent. simpl. intros [H|[]]. discriminate.
  - intros Hfalsy. unfold withdrawMoney.
    assert (Hskip :
      match ATMInput_accountId T (data req) with
      | Some id =>
          if id =? 0 then ret tt
          else (await this (IsAuthorizedAccount id (source req) [Admin]) ;; ret tt)
      | None => ret tt
      end = (ret tt : Handler T World unit)).
    { destruct Hfalsy as [-> | ->]; reflexivity. }
    rewrite Hskip.
    unfold try_catch, bind, await, await_promise, res, ret, console_error. simpl.
    destruct (perform this (HandleWithdrawMoney req) w) as [[d|e] w1];
      split; reflexivity.
Qed.

Lemma withdrawMoney_checks_named_account_witness :
  calls (events (withdrawMoney Scenario.controller Scenario.bob_withdraws_joint
                   Scenario.bank))
    = [IsAuthorizedAccount 10 2 [Admin]] /\
  replies (events (withdrawMoney Scenario.controller Scenario.bob_withdraws_joint
                     Scenario.bank))
    = [reply_error "Unauthorized" None].
Proof.
  destruct (withdrawMoney_checks_named_account
              Scenario.controller Scenario.bob_withdraws_joint Scenario.bank)
    as [Hnamed _].
  destruct (Hnamed 10 eq_refl ltac:(discriminate)) as (_ & Hthrows & _).
  destruct (Hthrows (LedgerSpec.failure LedgerSpec.Unauthorized) Scenario.bank eq_refl)
    as (Hcalls & _ & _ & Hreplies & _).
  split; assumption.
Defined.

(** ** Deposits and balance adjustments *)

(** C6.  [depositMoney] makes one call, [handleDepositMoney] with the request;
    no authorization check is among its calls, and its run is the same
    whatever [_auth] is.  The reply is [ok] with [{}] when the service
    resolves and the error reply with the service's message when it throws;
    the handler completes either way. *)
Theorem depositMoney_is_not_checked T World
    (this : AccountController T World) (req : Request (ATMInput T)) (w : World) :
  let r := depositMoney this req w in
  calls (events r) = [HandleDepositMoney req] /\
  (forall account src roles,
     ~ In (IsAuthorizedAccount account src roles) (calls (events r))) /\
  (forall auth',
     depositMoney {| _auth := auth';
                     _accountService := _accountService this;
                     _externalAccountService := _externalAccountService this |}
       req w = r) /\
  replies (events r) =
    [match fst (perform this (HandleDepositMoney req) w) with
     | Resolved _ => reply_ok DEmpty
     | Rejected e => reply_error (message e) None
     end] /\
  thrown_errors (events r) =
    match fst (perform this (HandleDepositMoney req) w) with
    | Resolved _ => []
    | Rejected e => [e]
    end /\
  final r = snd (perform this (HandleDepositMoney req) w) /\
  completion r = Resolved tt.
Proof.
  intros r. subst r.
  change (depositMoney this req)
    with (direct this (HandleDepositMoney req) (fun _ => reply_ok DEmpty)
            (fun _ => None)).
  split; [|split; [|split]].
  - rewrite direct_run.
    by destruct (perform this (HandleDepositMoney req) w) as [[d|e] w1].
  - intros account src roles. rewrite direct_run.
    destruct (perform this (HandleDepositMoney req) w) as [[d|e] w1];
      simpl; intros [H|[]]; discriminate.
  - intros auth'. reflexivity.
  - rewrite direct_run.
    by destruct (perform this (HandleDepositMoney req) w) as [[d|e] w1].
Qed.


(** ** Errors *)

(** Unfolds the handlers down to the calls they make. *)
Ltac open_handlers :=
  unfold handle, getAccounts, getTotalBankBalance, createAccount, deleteAccount,
    exportCreateAccount, depositMoney, withdrawMoney, setDefaultAccount,
    renameAccount, addSharedAccountUser, removeSharedAccountUser,
    getUsersFromSharedAccount, addExternalAccount, getExternalAccounts,
    addBankBalance, addBankBalanceByIdentifier, removeBankBalance,
    try_catch, bind, await, await_promise, res, ret, console_error in *.

(** Runs a handler on every outcome of the calls it awaits. *)
Ltac run_handler :=
  unfold handle, getAccounts, getTotalBankBalance, createAccount, deleteAccount,
    exportCreateAccount, depositMoney, withdrawMoney, setDefaultAccount,
    renameAccount, addSharedAccountUser, removeSharedAccountUser,
    getUsersFromSharedAccount, addExternalAccount, getExternalAccounts,
    addBankBalance, addBankBalanceByIdentifier, removeBankBalance,
    try_catch, bind, await, await_promise, res, ret, console_error in *;
  repeat match goal with
    | H : context [match ATMInput_accountId ?T ?d with _ => _ end] |- _ =>
        destruct (ATMInput_accountId T d) as [?id|]; simpl in *
    | H : context [if ?id =? 0 then _ else _] |- _ =>
        destruct (id =? 0); simpl in *
    | H : context [perform ?t ?c ?w] |- _ =>
        destruct (perform t c w) as [[?d|?e] ?w]; simpl in *
    | |- context [match ATMInput_accountId ?T ?d with _ => _ end] =>
        destruct (ATMInput_accountId T d) as [?id|]; simpl in *
    | |- context [if ?id =? 0 then _ else _] => destruct (id =? 0); simpl in *
    | |- context [perform ?t ?c ?w] =>
        destruct (perform t c w) as [[?d|?e] ?w]; simpl in *
    end.

(** A handler whose body is a [try]/[catch] completes and replies exactly
    once, whatever the services do. *)
Lemma caught_handlers_always_reply T World
    (this : AccountController T World) (op : Operation T) (w : World) :
  in_try_catch op = true ->
  completion (handle this op w) = Resolved tt /\
  length (replies (events (handle this op w))) = 1%nat.
Proof.
  intros Hcaught. destruct op; try discriminate Hcaught; clear Hcaught;
    run_handler; split; reflexivity.
Qed.

(** The two handlers without a [try]/[catch]: a throw of the service is the
    outcome of the handler, and [res] is not called. *)
Lemma uncaught_handlers_run T World
    (this : AccountController T World) (req : Request unit) (w : World) :
  getAccounts this req w =
    match perform this (HandleGetMyAccounts (source req)) w with
    | (Resolved d, w1) =>
        {| events := [EvAwait (HandleGetMyAccounts (source req)) None;
                      EvRes (reply_ok d)];
           final := w1; completion := Resolved tt |}
    | (Rejected e, w1) =>
        {| events := [EvAwait (HandleGetMyAccounts (source req)) (Some e)];
           final := w1; completion := Rejected e |}
    end /\
  getTotalBankBalance this req w =
    match perform this (GetTotalBankBalance (source req)) w with
    | (Resolved d, w1) =>
        {| events := [EvAwait (GetTotalBankBalance (source req)) None;
                      EvRes (reply_ok d)];
           final := w1; completion := Resolved tt |}
    | (Rejected e, w1) =>
        {| events := [EvAwait (GetTotalBankBalance (source req)) (Some e)];
           final := w1; completion := Rejected e |}
    end.
Proof. split; run_handler; reflexivity. Qed.

(** C1, at the input where it fails.  While the store cannot be reached,
    [handleGetMyAccounts] and [getTotalBankBalance] of the service throw; the
    handlers [getAccounts] and [getTotalBankBalance] then call [res] not at
    all, and the error is the outcome of the handler. *)
Theorem getAccounts_and_total_balance_let_errors_escape :
  let down := LedgerSpec.failure LedgerSpec.StorageUnavailable in
  let r1 := getAccounts Scenario.controller Scenario.alice_asks Scenario.bank_down in
  let r2 := getTotalBankBalance Scenario.controller Scenario.alice_asks
              Scenario.bank_down in
  (completion r1 = Rejected down /\ replies (events r1) = []) /\
  (completion r2 = Rejected down /\ replies (events r2) = []).
Proof. repeat split; reflexivity. Qed.

(** C9.  In a handler whose body is a [try]/[catch], when the service throws
    [e], be it at the authorization check of the handler or, the check passed
    or absent, at the method the handler delegates to, the one reply has
    status [error] and [e.message] as its [errorMsg], and the handler
    completes.  The reply is built from the message alone; only
    [getExternalAccounts] adds [e.name] as [errorName]. *)
Theorem caught_error_is_replied_by_message T World
    (this : AccountController T World) (op : Operation T) (w : World) (e : JsError) :
  in_try_catch op = true ->
  (exists chk w1,
     check_of op = Some chk /\ perform this chk w = (Rejected e, w1)) \/
  ((forall chk, check_of op = Some chk ->
      rejection (fst (perform this chk w)) = None) /\
   exists w2,
     perform this (delegate_of op) (world_after_check this op w)
     = (Rejected e, w2)) ->
  replies (events (handle this op w))
    = [{| status := error; rdata := None; errorMsg := Some (message e);
          errorName := forwarded_name op e |}] /\
  thrown_errors (events (handle this op w)) = [e] /\
  completion (handle this op w) = Resolved tt.
Proof.
  unfold world_after_check. intros Hcaught Hthrows.
  destruct op; try discriminate Hcaught; clear Hcaught;
    simpl check_of in Hthrows; simpl delegate_of in Hthrows; open_handlers.
  all: try (destruct (ATMInput_accountId T (data req)) as [id|];
            [destruct (id =? 0)|]; simpl in * ).
  all: destruct Hthrows as [(chk & w1 & Hchk & Hrej) | (Hpass & w2 & Hrej)].
  all: try discriminate Hchk.
  all: try (injection Hchk as <-).
  all: try (specialize (Hpass _ eq_refl)).
  all: repeat match goal with
         | H : context [snd (perform ?t ?c ?w)] |- _ =>
             destruct (perform t c w) as [[?u|?e] ?w]; simpl in *
         end.
  all: try discriminate Hpass.
  all: rewrite Hrej; simpl; repeat split; reflexivity.
Qed.

Lemma caught_error_is_replied_by_message_witness :
  replies (events (handle Scenario.controller
                     (OpGetExternalAccounts Scenario.alice_asks) Scenario.bank_down))
    = [{| status := error; rdata := None;
          errorMsg := Some "StorageUnavailable";
          errorName := Some "StorageUnavailable" |}] /\
  replies (events (handle Scenario.controller
                     (OpRenameAccount Scenario.bob_renames_joint) Scenario.bank))
    = [{| status := error; rdata := None;
          errorMsg := Some "Unauthorized";
          errorName := None |}].
Proof.
  split.
  - refine (proj1 (caught_error_is_replied_by_message
                     Scenario.controller (OpGetExternalAccounts Scenario.alice_asks)
                     Scenario.bank_down
                     (e := LedgerSpec.failure LedgerSpec.StorageUnavailable)
                     eq_refl (or_intror (conj _ (ex_intro _ Scenario.bank_down eq_refl))))).
    intros chk Hchk. discriminate Hchk.
  - exact (proj1 (caught_error_is_replied_by_message
                    Scenario.controller (OpRenameAccount Scenario.bob_renames_joint)
                    Scenario.bank
                    (e := LedgerSpec.failure LedgerSpec.Unauthorized)
                    eq_refl
                    (or_introl (ex_intro _ _ (ex_intro _ Scenario.bank
                                                (conj eq_refl eq_refl)))))).
Defined.

(** ** Session start *)

(** What [onUserLoaded] does, for every service: [createInitialAccount] is
    called with the user's source and its promise dropped; the handler
    completes whatever the outcome, and a rejection is left unhandled. *)
Lemma onUserLoaded_run T World
    (this : AccountController T World) (user : OnlineUser T) (w : World) :
  onUserLoaded this user w =
    match perform this (CreateInitialAccount (OnlineUser_source T user)) w with
    | (Resolved _, w1) =>
        {| events := [EvFloat (CreateInitialAccount (OnlineUser_source T user))];
           final := w1; completion := Resolved tt |}
    | (Rejected e, w1) =>
        {| events := [EvFloat (CreateInitialAccount (OnlineUser_source T user));
                      EvUnhandledRejection e];
           final := w1; completion := Resolved tt |}
    end.
Proof.
  unfold onUserLoaded, call_floating, float_promise.
  destruct (perform this (CreateInitialAccount (OnlineUser_source T user)) w)
    as [[d|e] w1]; reflexivity.
Qed.


(** ** The scenario, run *)

(** Alice owns account 10: the check passes and the deletion follows. *)
Example alice_deletes_joint :
  events (deleteAccount Scenario.controller Scenario.alice_on_joint Scenario.bank)
    = [EvAwait (IsAuthorizedAccount 10 1 [Owner]) None;
       EvAwait (HandleDeleteAccount Scenario.alice_on_joint) None;
       EvRes (reply_ok DEmpty)].
Proof. reflexivity. Qed.

(** Scenario D of the specification, on the adding side. *)
Example bob_may_not_add_dave :
  events (addSharedAccountUser Scenario.controller Scenario.bob_adds_dave
            Scenario.bank)
    = [EvAwait (IsAuthorizedAccount 10 2 [Admin])
         (Some (LedgerSpec.failure LedgerSpec.Unauthorized));
       EvRes (reply_error "Unauthorized" None)].
Proof. reflexivity. Qed.

Example alice_deposits_unchecked :
  events (depositMoney Scenario.controller Scenario.alice_deposits Scenario.bank)
    = [EvAwait (HandleDepositMoney Scenario.alice_deposits) None;
       EvRes (reply_ok DEmpty)].
Proof. reflexivity. Qed.

Example alice_adds_balance_either_way :
  events (addBankBalance Scenario.controller Scenario.alice_adds_balance
            Scenario.bank_down)
    = [EvAwait (AddMoney Scenario.alice_adds_balance)
         (Some (LedgerSpec.failure LedgerSpec.StorageUnavailable));
       EvRes (reply_error "StorageUnavailable" None)] /\
  events (addBankBalanceByIdentifier Scenario.controller Scenario.alice_adds_balance
            Scenario.bank_down)
    = events (addBankBalance Scenario.controller Scenario.alice_adds_balance
                Scenario.bank_down).
Proof. split; reflexivity. Qed.

(** ** Every operation *)

(** X1.  A run of any operation either completes with exactly one reply, or
    ends with an escaped error and no reply at all; the latter happens only in
    the two handlers without a [try]/[catch], and the escaped error is the one
    the service threw. *)
Theorem every_run_replies_once_or_escapes T World
    (this : AccountController T World) (op : Operation T) (w : World) :
  match completion (handle this op w) with
  | Resolved _ => length (replies (events (handle this op w))) = 1%nat
  | Rejected e =>
      in_try_catch op = false /\
      replies (events (handle this op w)) = [] /\
      thrown_errors (events (handle this op w)) = [e]
  end.
Proof. destruct op; run_handler; repeat split; reflexivity. Qed.


(** X3.  The calls of a run, for every operation: the check of the operation,
    when it has one, and then its delegate, unless the check threw; nothing
    else is ever called. *)
Theorem calls_of_every_operation T World
    (this : AccountController T World) (op : Operation T) (w : World) :
  calls (events (handle this op w)) =
    match check_of op with
    | None => [delegate_of op]
    | Some chk =>
        match fst (perform this chk w) with
        | Resolved _ => [chk; delegate_of op]
        | Rejected _ => [chk]
        end
    end.
Proof. destruct op; simpl check_of; simpl delegate_of; run_handler; reflexivity. Qed.

(** X4.  An operation that makes no authorization check runs the same
    whatever [_auth] is. *)
Theorem unchecked_operations_ignore_auth T World
    (this : AccountController T World) (op : Operation T) (w : World)
    (auth' : AuthService.t World) :
  check_of op = None ->
  handle {| _auth := auth';
            _accountService := _accountService this;
            _externalAccountService := _externalAccountService this |} op w
  = handle this op w.
Proof.
  intros Hnone. destruct op; simpl in Hnone; try discriminate Hnone;
    try reflexivity.
  unfold handle, withdrawMoney.
  destruct (ATMInput_accountId T (data req)) as [id|]; [|reflexivity].
  destruct (id =? 0); [reflexivity | discriminate Hnone].
Qed.

Lemma unchecked_operations_ignore_auth_witness :
  handle {| _auth := {| AuthService.isAuthorizedAccount :=
                          fun _ _ _ st =>
                            (Rejected (LedgerSpec.failure LedgerSpec.Unauthorized), st) |};
            _accountService := Scenario.accountService;
            _externalAccountService := Scenario.externalAccountService |}
    (OpRemoveBankBalance Scenario.alice_adds_balance) Scenario.bank
  = handle Scenario.controller (OpRemoveBankBalance Scenario.alice_adds_balance)
      Scenario.bank.
Proof.
  exact (unchecked_operations_ignore_auth Scenario.controller
           (OpRemoveBankBalance Scenario.alice_adds_balance) Scenario.bank _ eq_refl).
Defined.



(** X6.  Only [withdrawMoney] writes to the console: it writes every error it
    catches, once; no other handler writes anything. *)
Theorem only_withdrawMoney_writes_to_console T World
    (this : AccountController T World) (op : Operation T) (w : World) :
  console_errors (events (handle this op w)) =
    match op with
    | OpWithdrawMoney _ => thrown_errors (events (handle this op w))
    | _ => []
    end.
Proof. destruct op; run_handler; reflexivity. Qed.

(** X7.  The two external-account operations use [_externalAccountService]
    alone: they run the same whatever [_auth] and [_accountService] are.  Every
    other operation runs the same whatever [_externalAccountService] is. *)
Theorem operations_use_only_their_service T World
    (this : AccountController T World) (op : Operation T) (w : World)
    (auth' : AuthService.t World) (acc' : AccountService.t T World)
    (ext' : ExternalAccountService.t T World) :
  if uses_external op
  then handle {| _auth := auth'; _accountService := acc';
                 _externalAccountService := _externalAccountService this |} op w
       = handle this op w
  else handle {| _auth := _auth this; _accountService := _accountService this;
                 _externalAccountService := ext' |} op w
       = handle this op w.
Proof. destruct op; reflexivity. Qed.

